(** * Library-Management-System: URL table and account views

    A shallow embedding of the two modules of the backend,
    [config/urls.py] and [apps/accounts/views.py], together with the
    part of Django's resolver, of Django REST Framework's request
    pipeline and of the JWT library that those modules configure.  The
    project modules are declarative: a list of [path(...)] entries and
    three view classes that set [permission_classes], [serializer_class]
    and, for the profile view, override [get_object].  What these
    declarations mean is fixed by the libraries, so their dispatch is
    modelled next to them: module [Django] for [django.urls], module
    [Drf] for [rest_framework], module [SimpleJwt] for
    [rest_framework_simplejwt].  The project code itself is in
    [Config.urlpatterns] and in module [Accounts].  What the absent
    settings module and the absent serializer decide is a parameter
    ([Drf.Settings], [Drf.Serializer], [SimpleJwt.TokenBackend]). *)

From Stdlib Require Import String Ascii List Bool Arith Lia.
From stdpp Require Import base option gmap strings list fin_maps.

Local Open Scope string_scope.
Import ListNotations.

(* ===================================================================== *)
(** ** django.urls: routes, patterns and the resolver                     *)
(* ===================================================================== *)

Module Django.

(** The views that [config/urls.py] mounts directly. *)
Inductive view_class :=
| SpectacularAPIView
| SpectacularSwaggerView
| SpectacularRedocView.

(** A URLconf mounted under a prefix: [admin.site.urls] (a ready-made
    pattern tuple) or [include("dotted.module")]. *)
Inductive urlconf :=
| admin_site_urls
| include (module : string).

(** Second argument of [path]: [View.as_view(url_name=...)] or a URLconf. *)
Inductive target :=
| as_view (v : view_class) (url_name : option string)
| mount (u : urlconf).

Record URLPattern := path {
  route : string;
  callback : target;
  name : option string
}.

(** [p[len(route):]] when [p.startswith(route)]. *)
Fixpoint strip_prefix (route p : string) : option string :=
  match route with
  | EmptyString => Some p
  | String a route' =>
      match p with
      | EmptyString => None
      | String b p' => if Ascii.eqb a b then strip_prefix route' p' else None
      end
  end.

(** [RoutePattern.match] for a route without converters: an endpoint
    must equal the whole remaining path, a mounted URLconf only has to
    be a prefix of it; the result is the unmatched remainder. *)
Definition pattern_match (pat : URLPattern) (p : string) : option string :=
  match callback pat with
  | as_view _ _ => if String.eqb (route pat) p then Some "" else None
  | mount _ => strip_prefix (route pat) p
  end.

Section Resolver.
(** What a mounted URLconf resolves the remainder to; [None] is
    [Resolver404].  The mounted modules are not part of this table. *)
Context {Handler : Type}.
Variable urlconf_resolve : urlconf -> string -> option Handler.

Inductive ResolverMatch :=
| MatchView (v : view_class) (url_name : option string) (name : option string)
| MatchMounted (u : urlconf) (remainder : string) (h : Handler).

(** [URLResolver.resolve]: patterns are tried in order; a mounted
    URLconf that raises [Resolver404] on the remainder does not stop
    the search. *)
Fixpoint resolve (patterns : list URLPattern) (p : string) : option ResolverMatch :=
  match patterns with
  | [] => None
  | pat :: rest =>
      match pattern_match pat p with
      | None => resolve rest p
      | Some remainder =>
          match callback pat with
          | as_view v kw => Some (MatchView v kw (name pat))
          | mount u =>
              match urlconf_resolve u remainder with
              | Some h => Some (MatchMounted u remainder h)
              | None => resolve rest p
              end
          end
      end
  end.

(** The root resolver consumes the leading slash of [request.path_info]. *)
Definition resolve_path_info (patterns : list URLPattern) (path_info : string)
  : option ResolverMatch :=
  match strip_prefix "/" path_info with
  | Some p => resolve patterns p
  | None => None
  end.
End Resolver.

Arguments ResolverMatch : clear implicits.

(** Entries of a table whose pattern matches [p], whatever the mounted
    URLconfs do with the remainder. *)
Definition matching (patterns : list URLPattern) (p : string) : list URLPattern :=
  List.filter (fun pat => bool_decide (is_Some (pattern_match pat p))) patterns.

(** Entries of a table that carry the name [n]. *)
Definition named (patterns : list URLPattern) (n : string) : list URLPattern :=
  List.filter (fun pat => bool_decide (name pat = Some n)) patterns.

End Django.

(* ===================================================================== *)
(** ** config/urls.py                                                     *)
(* ===================================================================== *)

Module Config.
Import Django.

Definition urlpatterns : list URLPattern :=
  [ path "admin/" (mount admin_site_urls) None;
    path "api/schema/" (as_view SpectacularAPIView None) (Some "schema");
    path "" (as_view SpectacularSwaggerView (Some "schema")) (Some "swagger-ui");
    path "api/redoc/" (as_view SpectacularRedocView (Some "schema")) (Some "redoc");
    path "api/auth/" (mount (include "apps.accounts.urls")) None;
    path "api/books/" (mount (include "apps.books.urls")) None;
    path "api/circulations/" (mount (include "apps.circulations.urls")) None;
    path "api/fines/" (mount (include "apps.fines.urls")) None ].

(** The four API prefixes that the specification lists, each with the
    module it is said to include; that every pair is an entry of
    [urlpatterns] is part of what is proved about them. *)
Definition api_routes : list (string * string) :=
  [ ("api/auth/", "apps.accounts.urls");
    ("api/books/", "apps.books.urls");
    ("api/circulations/", "apps.circulations.urls");
    ("api/fines/", "apps.fines.urls") ].
End Config.

(* ===================================================================== *)
(** ** HTTP requests and responses                                        *)
(* ===================================================================== *)

Module Http.

(** [View.http_method_names]. *)
Inductive Method := GET | POST | PUT | PATCH | DELETE | HEAD | OPTIONS | TRACE.

#[global] Instance Method_eq_dec : EqDecision Method.
Proof. solve_decision. Defined.

(** Python dictionaries with string keys: [request.META], parsed request
    data, validated data, model attributes, serializer output. *)
Abbreviation Dict := (gmap string string).

(** [django.http.HttpRequest]: the method, the headers as [request.META]
    holds them (under keys such as [HTTP_AUTHORIZATION], [HTTP_ACCEPT]
    and [CONTENT_TYPE]) and the raw body. *)
Record HttpRequest := {
  method : Method;
  META : Dict;
  body : string
}.

Definition HTTP_200_OK : nat := 200.
Definition HTTP_201_CREATED : nat := 201.
Definition HTTP_400_BAD_REQUEST : nat := 400.
Definition HTTP_401_UNAUTHORIZED : nat := 401.
Definition HTTP_403_FORBIDDEN : nat := 403.
Definition HTTP_404_NOT_FOUND : nat := 404.
Definition HTTP_405_METHOD_NOT_ALLOWED : nat := 405.
Definition HTTP_406_NOT_ACCEPTABLE : nat := 406.
Definition HTTP_415_UNSUPPORTED_MEDIA_TYPE : nat := 415.
Definition HTTP_429_TOO_MANY_REQUESTS : nat := 429.
Definition HTTP_500_INTERNAL_SERVER_ERROR : nat := 500.

End Http.

(* ===================================================================== *)
(** ** The user table                                                     *)
(* ===================================================================== *)

Module Orm.
Import Http.

(** A model instance in memory: primary key and column values. *)
Record User := { pk : nat; fields : Dict }.

(** [User.objects]: the rows of the user table by primary key. *)
Abbreviation Table := (gmap nat Dict).

(** [request.user]: Django's [AnonymousUser] or a loaded user. *)
Inductive RequestUser :=
| AnonymousUser
| AuthUser (u : User).

Definition is_authenticated (ru : RequestUser) : bool :=
  match ru with
  | AnonymousUser => false
  | AuthUser _ => true
  end.

End Orm.

(* ===================================================================== *)
(** ** rest_framework: the request pipeline and the generic views         *)
(* ===================================================================== *)

Module Drf.
Import Http Orm.

(** Exceptions a request can end in.  All but the last are
    [rest_framework.exceptions] ([NotFound] is also what Django's
    [Http404] is answered as); [Unhandled] is any other Python
    exception, which Django answers with status 500. *)
Inductive Exception :=
| NotAcceptable
| NotFound
| NotAuthenticated
| AuthenticationFailed
| PermissionDenied
| Throttled
| MethodNotAllowed (m : Method)
| ParseError
| UnsupportedMediaType
| ValidationError (errors : Dict)
| Unhandled.

Inductive Body :=
| Data (d : Dict)
| Metadata
| Detail (e : Exception).

Record Response := {
  body : Body;
  status_code : nat;
  www_authenticate : option string
}.

(** [Response(data, status=...)]. *)
Definition mkResponse (d : Dict) (status : nat) : Response :=
  {| body := Data d; status_code := status; www_authenticate := None |}.

(** *** Code that reads and writes the table and may raise *)

Definition M (A : Type) : Type := Table -> Table * (Exception + A).

#[global] Instance M_ret : MRet M := fun A a tbl => (tbl, inr a).
#[global] Instance M_bind : MBind M := fun A B k c tbl =>
  match c tbl with
  | (tbl', inr a) => k a tbl'
  | (tbl', inl e) => (tbl', inl e)
  end.

Definition raise {A : Type} (e : Exception) : M A := fun tbl => (tbl, inl e).
Definition read_table : M Table := fun tbl => (tbl, inr tbl).
Definition lift {A : Type} (r : Exception + A) : M A := fun tbl => (tbl, r).

(** [Model.objects.create] with keyword arguments [f]: an INSERT under
    a key the table does not use yet. *)
Definition objects_create (f : Dict) : M User := fun tbl =>
  let k := fresh (dom tbl) in
  (<[k := f]> tbl, inr {| pk := k; fields := f |}).

(** [instance.save()]: the row of the instance's primary key is
    written with the attributes of the instance. *)
Definition save (u : User) : M unit := fun tbl =>
  (<[pk u := fields u]> tbl, inr tt).

(** *** Authentication *)

(** Outcome of [authenticator.authenticate(request)]: [None], a user,
    or [AuthenticationFailed] raised. *)
Inductive AuthAttempt :=
| NotAttempted
| AuthenticatedAs (u : User)
| Rejected.

Record Authenticator := {
  authenticate : HttpRequest -> Table -> AuthAttempt;
  authenticate_header : option string
}.

(** [Request._authenticate]: the first authenticator that returns a
    user decides; one that raises ends the request; when none applies
    the user is [AnonymousUser] and there is no successful
    authenticator. *)
Fixpoint _authenticate (authenticators : list Authenticator)
    (req : HttpRequest) (tbl : Table) : Exception + RequestUser :=
  match authenticators with
  | [] => inr AnonymousUser
  | a :: rest =>
      match authenticate a req tbl with
      | Rejected => inl AuthenticationFailed
      | AuthenticatedAs u => inr (AuthUser u)
      | NotAttempted => _authenticate rest req tbl
      end
  end.

(** [rest_framework.request.Request]: the HTTP request with the lazily
    computed [user] and [data], here already computed; an exception of
    the parsers is raised where [data] is read. *)
Record Request := {
  _request : HttpRequest;
  user : RequestUser;
  data : Exception + Dict
}.

(** *** Permissions *)

Inductive Permission := AllowAny | IsAuthenticated.

Definition has_permission (p : Permission) (request : Request) : bool :=
  match p with
  | AllowAny => true
  | IsAuthenticated => is_authenticated (user request)
  end.

(** [APIView.permission_denied]. *)
Definition permission_denied (authenticators : list Authenticator)
    (request : Request) : Exception :=
  match authenticators, user request with
  | _ :: _, AnonymousUser => NotAuthenticated
  | _, _ => PermissionDenied
  end.

(** [APIView.check_permissions]. *)
Fixpoint check_permissions (authenticators : list Authenticator)
    (perms : list Permission) (request : Request) : Exception + unit :=
  match perms with
  | [] => inr tt
  | p :: rest =>
      if has_permission p request
      then check_permissions authenticators rest request
      else inl (permission_denied authenticators request)
  end.

(** *** Views *)

Definition Handler : Type := Request -> M Response.

(** The class attributes of an [APIView] subclass and its method
    handlers ([getattr(self, method.lower(), ...)]).
    [authentication_classes = None] stands for a class that does not
    set the attribute and so inherits the configured default. *)
Record APIView := {
  authentication_classes : option (list Authenticator);
  permission_classes : list Permission;
  get_authenticate_header : list Authenticator -> option string;
  handler : Method -> option Handler
}.

(** How content negotiation or versioning refuses a request: no
    renderer serves what the request accepts ([NotAcceptable]), or the
    requested format or version is unknown ([Http404]). *)
Inductive Unserved := not_acceptable | not_found.

(** How the parsers fail on a request body: the body is malformed
    ([ParseError]) or no parser takes its content type
    ([UnsupportedMediaType]). *)
Inductive Unparsed := malformed | unsupported.

(** The part of the [REST_FRAMEWORK] settings that the views read.  The
    settings module is not among the sources, so each entry is a
    parameter: the default authentication classes; the verdict of the
    content negotiation class over the default renderers; the verdict of
    the versioning class; the verdict of the throttle classes (which
    consult a cache and the clock, outside the user table); and the
    result of the default parsers on the request body. *)
Record Settings := {
  DEFAULT_AUTHENTICATION_CLASSES : list Authenticator;
  select_renderer : HttpRequest -> option Unserved;
  determine_version : HttpRequest -> option Unserved;
  allow_request : HttpRequest -> RequestUser -> bool;
  parse : HttpRequest -> Unparsed + Dict
}.

Definition unserved (x : Unserved) : Exception :=
  match x with
  | not_acceptable => NotAcceptable
  | not_found => NotFound
  end.

(** [APIView.get_authenticators]. *)
Definition get_authenticators (settings : Settings) (view : APIView)
  : list Authenticator :=
  default (DEFAULT_AUTHENTICATION_CLASSES settings) (authentication_classes view).

(** [APIView.get_authenticate_header]: the header of the first
    authenticator, if there is one. *)
Definition first_authenticate_header (authenticators : list Authenticator)
  : option string :=
  match authenticators with
  | a :: _ => authenticate_header a
  | [] => None
  end.

(** The first two steps of [APIView.initial],
    [perform_content_negotiation] and then [determine_version]: what
    stops the request before it is authenticated, if anything. *)
Definition before_authentication (settings : Settings) (req : HttpRequest)
  : option Unserved :=
  match select_renderer settings req with
  | Some x => Some x
  | None => determine_version settings req
  end.

(** [APIView.perform_authentication]: evaluates [request.user]. *)
Definition perform_authentication (settings : Settings) (view : APIView)
    (req : HttpRequest) (tbl : Table) : Exception + RequestUser :=
  _authenticate (get_authenticators settings view) req tbl.

(** [APIView.check_throttles]. *)
Definition check_throttles (settings : Settings) (request : Request)
  : Exception + unit :=
  if allow_request settings (_request request) (user request)
  then inr tt else inl Throttled.

(** [request.data]: the parsed body, or the parsers' exception. *)
Definition request_data (settings : Settings) (req : HttpRequest) : Exception + Dict :=
  match parse settings req with
  | inr d => inr d
  | inl malformed => inl ParseError
  | inl unsupported => inl UnsupportedMediaType
  end.

(** [APIView.initial]: content negotiation, versioning, authentication,
    the permission classes and the throttles, in this order and all
    before any handler is looked up. *)
Definition initial (settings : Settings) (view : APIView) (req : HttpRequest)
  : M Request :=
  lift (match before_authentication settings req with
        | Some x => inl (unserved x)
        | None => inr tt
        end);;
  tbl ← read_table;
  ru ← lift (perform_authentication settings view req tbl);
  let request := {| _request := req; user := ru; data := request_data settings req |} in
  lift (check_permissions (get_authenticators settings view)
          (permission_classes view) request);;
  lift (check_throttles settings request);;
  mret request.

Definition exception_status (e : Exception) : nat :=
  match e with
  | NotAcceptable => HTTP_406_NOT_ACCEPTABLE
  | NotFound => HTTP_404_NOT_FOUND
  | NotAuthenticated | AuthenticationFailed => HTTP_401_UNAUTHORIZED
  | PermissionDenied => HTTP_403_FORBIDDEN
  | Throttled => HTTP_429_TOO_MANY_REQUESTS
  | MethodNotAllowed _ => HTTP_405_METHOD_NOT_ALLOWED
  | ParseError => HTTP_400_BAD_REQUEST
  | UnsupportedMediaType => HTTP_415_UNSUPPORTED_MEDIA_TYPE
  | ValidationError _ => HTTP_400_BAD_REQUEST
  | Unhandled => HTTP_500_INTERNAL_SERVER_ERROR
  end.

(** [APIView.handle_exception]: the two authentication exceptions keep
    status 401 only when there is a non-empty [WWW-Authenticate] header
    to send, and are coerced to 403 otherwise. *)
Definition handle_exception (auth_header : option string) (e : Exception)
  : Response :=
  match e with
  | NotAuthenticated | AuthenticationFailed =>
      match auth_header with
      | Some h =>
          if String.eqb h ""
          then {| body := Detail e; status_code := HTTP_403_FORBIDDEN;
                  www_authenticate := None |}
          else {| body := Detail e; status_code := exception_status e;
                  www_authenticate := Some h |}
      | None => {| body := Detail e; status_code := HTTP_403_FORBIDDEN;
                   www_authenticate := None |}
      end
  | _ => {| body := Detail e; status_code := exception_status e;
            www_authenticate := None |}
  end.

(** [APIView.dispatch]: [initial], then the handler of the request
    method ([http_method_not_allowed] when the class has none); any
    exception becomes a response. *)
Definition dispatch (settings : Settings) (view : APIView) (req : HttpRequest)
    (tbl : Table) : Table * Response :=
  let run : M Response :=
    request ← initial settings view req;
    match handler view (method req) with
    | Some h => h request
    | None => raise (MethodNotAllowed (method req))
    end in
  match run tbl with
  | (tbl', inr response) => (tbl', response)
  | (tbl', inl e) =>
      (tbl', handle_exception
               (get_authenticate_header view (get_authenticators settings view)) e)
  end.

(** [APIView.options]: a description of the endpoint. *)
Definition options : Handler := fun _ =>
  mret {| body := Metadata; status_code := HTTP_200_OK; www_authenticate := None |}.

(** *** Serializers and the generic views *)

(** Modelled from the spec: [UserSerializer] is defined in
    [apps/accounts/serializers.py], which is not among the sources; the
    spec calls it a serializer "defined elsewhere" that fixes the shape
    of the user entity, so it is taken as a model serializer given by
    what the generic views use of one: [to_representation(instance)],
    validation of the request data (against the instance on update,
    with [partial] for PATCH, and against the table for uniqueness),
    and the attribute values that [create] and [update] give the
    instance they save. *)
Record Serializer := {
  to_representation : User -> Dict;
  run_validation : option User -> bool -> Dict -> Table -> Dict + Dict;
  create_fields : Dict -> Dict;
  update_fields : Dict -> Dict -> Dict
}.

Section Generics.
Variable serializer_class : Serializer.

(** [serializer.is_valid(raise_exception=True)]. *)
Definition is_valid (instance : option User) (partial : bool) (d : Dict) : M Dict :=
  tbl ← read_table;
  match run_validation serializer_class instance partial d tbl with
  | inl errors => raise (ValidationError errors)
  | inr validated => mret validated
  end.

(** [serializer.save()] without an instance: [create] inserts one
    row built from the validated data. *)
Definition save_new (validated : Dict) : M User :=
  objects_create (create_fields serializer_class validated).

(** [serializer.save()] with an instance: the attributes are set on
    the instance that the view passed in and that instance is saved. *)
Definition save_existing (instance : User) (validated : Dict) : M User :=
  let instance' :=
    {| pk := pk instance;
       fields := update_fields serializer_class (fields instance) validated |} in
  save instance';;
  mret instance'.

(** [CreateModelMixin.create]. *)
Definition create : Handler := fun request =>
  d ← lift (data request);
  validated ← is_valid None false d;
  instance ← save_new validated;
  mret (mkResponse (to_representation serializer_class instance) HTTP_201_CREATED).

(** The object a detail view works on, as returned by [get_object]. *)
Variable get_object : Request -> RequestUser.

(** The serializer reads model attributes, which [AnonymousUser]
    does not have. *)
Definition as_instance (ru : RequestUser) : M User :=
  match ru with
  | AuthUser u => mret u
  | AnonymousUser => raise Unhandled
  end.

(** [RetrieveModelMixin.retrieve]. *)
Definition retrieve : Handler := fun request =>
  instance ← as_instance (get_object request);
  mret (mkResponse (to_representation serializer_class instance) HTTP_200_OK).

(** [UpdateModelMixin.update] and [partial_update]. *)
Definition update (partial : bool) : Handler := fun request =>
  instance ← as_instance (get_object request);
  d ← lift (data request);
  validated ← is_valid (Some instance) partial d;
  instance' ← save_existing instance validated;
  mret (mkResponse (to_representation serializer_class instance') HTTP_200_OK).
End Generics.

(** [generics.CreateAPIView]: [post] only. *)
Definition CreateAPIView (permission_classes : list Permission)
    (serializer_class : Serializer) : APIView :=
  {| authentication_classes := None;
     permission_classes := permission_classes;
     get_authenticate_header := first_authenticate_header;
     handler := fun m =>
       match m with
       | POST => Some (create serializer_class)
       | OPTIONS => Some options
       | _ => None
       end |}.

(** [generics.RetrieveUpdateAPIView]: [get], [put] and [patch];
    Django's [View.setup] aliases [head] to [get]. *)
Definition RetrieveUpdateAPIView (permission_classes : list Permission)
    (serializer_class : Serializer) (get_object : Request -> RequestUser) : APIView :=
  {| authentication_classes := None;
     permission_classes := permission_classes;
     get_authenticate_header := first_authenticate_header;
     handler := fun m =>
       match m with
       | GET | HEAD => Some (retrieve serializer_class get_object)
       | PUT => Some (update serializer_class get_object false)
       | PATCH => Some (update serializer_class get_object true)
       | OPTIONS => Some options
       | _ => None
       end |}.
End Drf.

(* ===================================================================== *)
(** ** rest_framework_simplejwt: bearer authentication and the token view *)
(* ===================================================================== *)

Module SimpleJwt.
Import Http Orm Drf.

(** What the token library and the user model contribute, neither of
    them defined by this project's sources: [decode] validates a raw
    token and yields the user id it was issued for ([None] for
    [InvalidToken]); [user_is_active] reads [user.is_active];
    [validate_credentials] is [TokenObtainPairSerializer]'s validation,
    that is the field checks and [django.contrib.auth.authenticate],
    which may write to the user's row (a password hash that has to be
    upgraded, the time of the last login); [for_user] issues a refresh
    token and [access_token] derives the access token from it. *)
Record TokenBackend := {
  decode : string -> option nat;
  user_is_active : Dict -> bool;
  validate_credentials : Dict -> M User;
  for_user : User -> string;
  access_token : string -> string
}.

(** ASCII whitespace, on which [bytes.split()] splits: tab, line feed,
    vertical tab, form feed, carriage return and space. *)
Definition is_space (c : ascii) : bool :=
  let n := nat_of_ascii c in
  (Nat.leb 9 n && Nat.leb n 13) || Nat.eqb n 32.

(** [header.split()]. *)
Fixpoint split_from (cur s : string) : list string :=
  match s with
  | EmptyString => if String.eqb cur "" then [] else [cur]
  | String c s' =>
      if is_space c
      then (if String.eqb cur "" then split_from "" s' else cur :: split_from "" s')
      else split_from (cur +:+ String c "") s'
  end.

Definition split (s : string) : list string := split_from "" s.

(** The double quote character. *)
Definition quote : string := String (ascii_of_nat 34) "".

(** The challenge of the bearer scheme, with the realm [api] in double
    quotes. *)
Definition bearer_realm : string := "Bearer realm=" +:+ quote +:+ "api" +:+ quote.

(** [JWTAuthentication]: without an [Authorization] header
    ([META["HTTP_AUTHORIZATION"]]), or with another scheme, there is no
    attempt; a [Bearer] header is an attempt, and it is rejected unless
    it has exactly one token, the token validates, its user exists and
    the user is active. *)
Definition JWTAuthentication (jwt : TokenBackend) : Authenticator :=
  {| authenticate := fun req tbl =>
       match META req !! "HTTP_AUTHORIZATION" with
       | None => NotAttempted
       | Some header =>
           match split header with
           | [] => NotAttempted
           | scheme :: parts =>
               if String.eqb scheme "Bearer" then
                 match parts with
                 | [raw_token] =>
                     match decode jwt raw_token with
                     | None => Rejected
                     | Some user_id =>
                         match tbl !! user_id with
                         | Some f =>
                             if user_is_active jwt f
                             then AuthenticatedAs {| pk := user_id; fields := f |}
                             else Rejected
                         | None => Rejected
                         end
                     end
                 | _ => Rejected
                 end
               else NotAttempted
           end
       end;
     authenticate_header := Some bearer_realm |}.

(** [TokenViewBase.post] with [TokenObtainPairSerializer]. *)
Definition post (jwt : TokenBackend) : Handler := fun request =>
  d ← lift (data request);
  u ← validate_credentials jwt d;
  let refresh := for_user jwt u in
  mret (mkResponse (<["refresh" := refresh]> {["access" := access_token jwt refresh]})
          HTTP_200_OK).

(** [TokenObtainPairView]: the base class runs no authenticators and
    advertises the bearer scheme itself. *)
Definition TokenObtainPairView (jwt : TokenBackend)
    (permission_classes : list Permission) : APIView :=
  {| authentication_classes := Some [];
     permission_classes := permission_classes;
     get_authenticate_header := fun _ => Some bearer_realm;
     handler := fun m =>
       match m with
       | POST => Some (post jwt)
       | OPTIONS => Some options
       | _ => None
       end |}.
End SimpleJwt.

(* ===================================================================== *)
(** ** apps/accounts/views.py                                             *)
(* ===================================================================== *)

Module Accounts.
Import Http Orm Drf SimpleJwt.

Section Views.
(** [from .serializers import UserSerializer] *)
Variable UserSerializer : Serializer.
(** The token library as the project configures it. *)
Variable jwt : TokenBackend.

(** [queryset = User.objects.all()] is the user table itself. *)
Definition UserRegistrationView : APIView :=
  CreateAPIView [AllowAny] UserSerializer.

Definition UserLoginView : APIView :=
  TokenObtainPairView jwt [AllowAny].

(** [UserProfileView.get_object]: [return self.request.user]. *)
Definition get_object (self_request : Request) : RequestUser :=
  user self_request.

Definition UserProfileView : APIView :=
  RetrieveUpdateAPIView [IsAuthenticated] UserSerializer get_object.
End Views.

(** Modelled from the spec: the settings module is not among the
    sources; the spec describes login "via JWT" and a 401 answer to
    unauthenticated profile access, so the default authentication class
    is the token library's bearer authentication.  The other settings
    stay those of [conf]. *)
Definition REST_FRAMEWORK (jwt : TokenBackend) (conf : Settings) : Settings :=
  {| DEFAULT_AUTHENTICATION_CLASSES := [JWTAuthentication jwt];
     select_renderer := select_renderer conf;
     determine_version := determine_version conf;
     allow_request := allow_request conf;
     parse := parse conf |}.
End Accounts.

(* ===================================================================== *)
(** ** drf_spectacular.views                                              *)
(* ===================================================================== *)

Module Spectacular.
Import Http Django.

(** Each of the three documentation views defines [get] and nothing
    else; [head] and [options] come with the base class. *)
Definition allowed_methods (v : view_class) : list Method :=
  match v with
  | SpectacularAPIView | SpectacularSwaggerView | SpectacularRedocView =>
      [GET; HEAD; OPTIONS]
  end.
End Spectacular.

(* ===================================================================== *)
(** ** A concrete deployment, for evaluating the model                    *)
(* ===================================================================== *)

Module Sample.
Import Http Orm Drf SimpleJwt Accounts.

(** A model serializer with the default [create] and [update]: the
    username is required unless the update is partial, the password is
    never written out. *)
Definition serializer : Serializer :=
  {| to_representation := fun u => delete "password" (fields u);
     run_validation := fun _ partial d _ =>
       if partial || bool_decide (is_Some (d !! "username"))
       then inr d
       else inl {["username" := "This field is required."]};
     create_fields := fun validated => validated;
     update_fields := fun attrs validated => validated ∪ attrs |}.

Definition table : Table :=
  <[1 := <["username" := "alice"]> {["password" := "wonderland"]}]>
    {[2 := <["username" := "bob"]> {["password" := "builder"]}]}.

Definition alice : User :=
  {| pk := 1; fields := <["username" := "alice"]> {["password" := "wonderland"]} |}.

Definition jwt : TokenBackend :=
  {| decode := fun raw =>
       if String.eqb raw "token-of-alice" then Some 1
       else if String.eqb raw "token-of-bob" then Some 2
       else None;
     user_is_active := fun f => negb (bool_decide (f !! "is_active" = Some "False"));
     validate_credentials := fun d tbl =>
       match d !! "username", d !! "password" with
       | Some name, Some password =>
           match List.find (fun '(_, f) =>
                   bool_decide (f !! "username" = Some name
                                ∧ f !! "password" = Some password))
                   (map_to_list tbl) with
           | Some (k, f) => (tbl, inr {| pk := k; fields := f |})
           | None => (tbl, inl AuthenticationFailed)
           end
       | _, _ => (tbl, inl (ValidationError {["detail" := "This field is required."]}))
       end;
     for_user := fun u => "refresh-of-" +:+ default "" (fields u !! "username");
     access_token := fun refresh => "access-from-" +:+ refresh |}.

(** [a=1&b=2] as a dictionary; [None] when a piece is not [key=value]. *)
Fixpoint split_on (sep : ascii) (cur s : string) : list string :=
  match s with
  | EmptyString => [cur]
  | String c s' =>
      if Ascii.eqb c sep then cur :: split_on sep "" s'
      else split_on sep (cur +:+ String c "") s'
  end.

Fixpoint form_pairs (pieces : list string) : option Dict :=
  match pieces with
  | [] => Some ∅
  | piece :: rest =>
      match split_on "=" "" piece, form_pairs rest with
      | [k; v], Some d => Some (<[k := v]> d)
      | _, _ => None
      end
  end.

(** JSON is what is rendered and forms are what is parsed; no
    versioning and no throttling. *)
Definition conf : Settings :=
  {| DEFAULT_AUTHENTICATION_CLASSES := [];
     select_renderer := fun req =>
       match META req !! "HTTP_ACCEPT" with
       | None => None
       | Some accept =>
           if String.eqb accept "*/*" || String.eqb accept "application/json"
           then None else Some not_acceptable
       end;
     determine_version := fun _ => None;
     allow_request := fun _ _ => true;
     parse := fun req =>
       if String.eqb (Http.body req) "" then inr ∅
       else match META req !! "CONTENT_TYPE" with
            | Some "application/x-www-form-urlencoded" =>
                match form_pairs (split_on "&" "" (Http.body req)) with
                | Some d => inr d
                | None => inl malformed
                end
            | _ => inl unsupported
            end |}.

Definition settings : Settings := REST_FRAMEWORK jwt conf.

Definition form : Dict := {["CONTENT_TYPE" := "application/x-www-form-urlencoded"]}.

Definition bearer (token : string) : Dict :=
  <["HTTP_AUTHORIZATION" := "Bearer " +:+ token]> form.

Definition request (m : Method) (meta : Dict) (b : string) : HttpRequest :=
  {| method := m; META := meta; Http.body := b |}.

Definition carol : Dict := <["username" := "carol"]> {["password" := "singer"]}.

Definition get_by_alice : HttpRequest := request GET (bearer "token-of-alice") "".
Definition patch_by_alice : HttpRequest :=
  request PATCH (bearer "token-of-alice") "username=alicia".
Definition delete_by_alice : HttpRequest := request DELETE (bearer "token-of-alice") "".
Definition delete_without_credentials : HttpRequest := request DELETE form "".
Definition get_without_credentials : HttpRequest := request GET form "".
Definition get_xml_without_credentials : HttpRequest :=
  request GET (<["HTTP_ACCEPT" := "application/xml"]> form) "".
Definition register_carol : HttpRequest :=
  request POST form "username=carol&password=singer".
Definition register_carol_with_stale_token : HttpRequest :=
  request POST (bearer "expired") "username=carol&password=singer".
Definition register_carol_accepting_xml : HttpRequest :=
  request POST (<["HTTP_ACCEPT" := "application/xml"]> form)
    "username=carol&password=singer".
Definition login_alice : HttpRequest :=
  request POST (bearer "expired") "username=alice&password=wonderland".

(** Mounted URLconfs that resolve every non-empty remainder. *)
Definition urlconf_resolve (u : Django.urlconf) (remainder : string) : option string :=
  if String.eqb remainder "" then None
  else match u with
       | Django.admin_site_urls => Some ("admin:" +:+ remainder)
       | Django.include module => Some (module +:+ ":" +:+ remainder)
       end.
End Sample.
(* ===================================================================== *)
(** * Properties of the URL table                                         *)
(* ===================================================================== *)

Section Routing.
Import Http Django Config Spectacular.

Context {Handler : Type}.
Variable urlconf_resolve : urlconf -> string -> option Handler.

Lemma strip_prefix_app (r rest : string) : strip_prefix r (r +:+ rest) = Some rest.
Proof.
  induction r as [|a r IH]; simpl; [reflexivity|].
  by rewrite Ascii.eqb_refl.
Qed.

(** A path that a mounted prefix matches is handed to that URLconf with
    the prefix removed, when no other entry of the table matches. *)
Lemma resolve_only_match (pats : list URLPattern) (pat : URLPattern) (u : urlconf)
    (p remainder : string) :
  matching pats p = [pat] ->
  callback pat = mount u ->
  pattern_match pat p = Some remainder ->
  resolve urlconf_resolve pats p
    = MatchMounted u remainder <$> urlconf_resolve u remainder.
Proof.
  unfold matching.
  induction pats as [|q pats IH]; intros Hm Hc Hp; simpl in *; [discriminate|].
  destruct (pattern_match q p) as [r|] eqn:Hq; simpl in Hm.
  - injection Hm as -> Hrest.
    rewrite Hc. rewrite Hp in Hq. injection Hq as <-.
    destruct (urlconf_resolve u remainder) as [h|]; simpl; [reflexivity|].
    clear IH Hc Hp. induction pats as [|q pats IH]; simpl in *; [reflexivity|].
    destruct (pattern_match q p); simpl in Hrest; [discriminate|].
    by apply IH.
  - by apply IH.
Qed.

(** C6. A path that begins with one of the four API prefixes
    ([api/auth/], [api/books/], [api/circulations/], [api/fines/]) is
    routed to the route module included for that prefix, with the
    prefix removed, and to nothing else: the entry of that prefix is
    the only entry of the table that matches the path.  The same holds
    for [request.path_info], which has a leading slash. *)
Theorem api_prefix_routed_to_its_module (prefix module rest : string) :
  In (prefix, module) api_routes ->
  resolve urlconf_resolve urlpatterns (prefix +:+ rest)
    = MatchMounted (include module) rest <$> urlconf_resolve (include module) rest
  /\ resolve_path_info urlconf_resolve urlpatterns ("/" +:+ prefix +:+ rest)
     = MatchMounted (include module) rest <$> urlconf_resolve (include module) rest
  /\ matching urlpatterns (prefix +:+ rest)
     = [path prefix (mount (include module)) None]
  /\ In (path prefix (mount (include module)) None) urlpatterns.
Proof.
  intros Hin.
  enough (H : resolve urlconf_resolve urlpatterns (prefix +:+ rest)
              = MatchMounted (include module) rest <$> urlconf_resolve (include module) rest
              /\ matching urlpatterns (prefix +:+ rest)
                 = [path prefix (mount (include module)) None]
              /\ In (path prefix (mount (include module)) None) urlpatterns)
    by (destruct H as (H1 & H2 & H3); repeat split; assumption).
  assert (Hm : matching urlpatterns (prefix +:+ rest)
               = [path prefix (mount (include module)) None]).
  { simpl in Hin.
    destruct Hin as [H|[H|[H|[H|[]]]]]; injection H as <- <-; reflexivity. }
  split; [|split]; [|exact Hm|].
  - eapply resolve_only_match; [exact Hm|reflexivity|].
    apply strip_prefix_app.
  - simpl in Hin. unfold urlpatterns.
    destruct Hin as [H|[H|[H|[H|[]]]]]; injection H as <- <-; simpl; tauto.
Qed.

(** C7. The table maps [api/schema/] to the schema view, the empty
    path to the Swagger UI view and [api/redoc/] to the Redoc view,
    under the names [schema], [swagger-ui] and [redoc]; each of these
    views answers GET. *)
Theorem documentation_endpoints :
  resolve urlconf_resolve urlpatterns "api/schema/"
    = Some (MatchView SpectacularAPIView None (Some "schema"))
  /\ resolve urlconf_resolve urlpatterns ""
     = Some (MatchView SpectacularSwaggerView (Some "schema") (Some "swagger-ui"))
  /\ resolve urlconf_resolve urlpatterns "api/redoc/"
     = Some (MatchView SpectacularRedocView (Some "schema") (Some "redoc"))
  /\ resolve_path_info urlconf_resolve urlpatterns "/"
     = Some (MatchView SpectacularSwaggerView (Some "schema") (Some "swagger-ui"))
  /\ In GET (allowed_methods SpectacularAPIView)
  /\ In GET (allowed_methods SpectacularSwaggerView)
  /\ In GET (allowed_methods SpectacularRedocView).
Proof.
  repeat split; try reflexivity; simpl; tauto.
Qed.

(** C10. Besides the API and documentation entries the table has an
    [admin/] entry: a path that begins with [admin/] is routed to the
    admin site's URLconf, and that entry is none of the API routes. *)
Theorem admin_prefix_routed_to_admin_site (rest : string) :
  resolve urlconf_resolve urlpatterns ("admin/" +:+ rest)
    = MatchMounted admin_site_urls rest <$> urlconf_resolve admin_site_urls rest
  /\ matching urlpatterns ("admin/" +:+ rest) = [path "admin/" (mount admin_site_urls) None]
  /\ In (path "admin/" (mount admin_site_urls) None) urlpatterns
  /\ ~ In "admin/" (map fst api_routes).
Proof.
  assert (Hm : matching urlpatterns ("admin/" +:+ rest)
               = [path "admin/" (mount admin_site_urls) None]) by reflexivity.
  split; [|split; [|split]].
  - eapply resolve_only_match; [exact Hm|reflexivity|reflexivity].
  - exact Hm.
  - simpl; tauto.
  - simpl. intros [H|[H|[H|[H|[]]]]]; discriminate.
Qed.
End Routing.

(* ===================================================================== *)
(** * Properties of the account views                                    *)
(* ===================================================================== *)

Ltac unfold_handlers :=
  unfold Drf.create, Drf.retrieve, Drf.update, Drf.options, SimpleJwt.post,
    Drf.is_valid, Drf.save_new, Drf.save_existing, Drf.save, Drf.objects_create,
    Drf.as_instance, Accounts.get_object, Drf.lift, mbind, Drf.M_bind, mret,
    Drf.M_ret, Drf.read_table, Drf.raise.

Section Pipeline.
Import Http Orm Drf.

(** [dispatch] step by step: content negotiation and versioning,
    authentication, permissions, throttles, handler. *)
Lemma dispatch_unfold (settings : Settings) (view : APIView) (req : HttpRequest)
    (tbl : Table) :
  let authenticators := get_authenticators settings view in
  let header := get_authenticate_header view authenticators in
  dispatch settings view req tbl =
    match before_authentication settings req with
    | Some x => (tbl, handle_exception header (unserved x))
    | None =>
        match perform_authentication settings view req tbl with
        | inl e => (tbl, handle_exception header e)
        | inr ru =>
            let request :=
              {| _request := req; user := ru; data := request_data settings req |} in
            match check_permissions authenticators (permission_classes view) request with
            | inl e => (tbl, handle_exception header e)
            | inr _ =>
                if allow_request settings req ru then
                  match handler view (method req) with
                  | None => (tbl, handle_exception header (MethodNotAllowed (method req)))
                  | Some h =>
                      match h request tbl with
                      | (tbl', inr response) => (tbl', response)
                      | (tbl', inl e) => (tbl', handle_exception header e)
                      end
                  end
                else (tbl, handle_exception header Throttled)
            end
        end
    end.
Proof.
  unfold dispatch, initial, check_throttles, mbind, M_bind, mret, M_ret, lift,
    read_table, raise.
  destruct (before_authentication settings req) as [x|]; [reflexivity|].
  destruct (perform_authentication settings view req tbl) as [e|ru]; [reflexivity|].
  cbv zeta.
  destruct (check_permissions _ _ _) as [e|[]]; [reflexivity|]. simpl.
  destruct (allow_request settings req ru); [|reflexivity].
  destruct (handler view (method req)); reflexivity.
Qed.

(** The only exception that evaluating [request.user] raises. *)
Lemma _authenticate_raises (authenticators : list Authenticator) (req : HttpRequest)
    (tbl : Table) (e : Exception) :
  _authenticate authenticators req tbl = inl e -> e = AuthenticationFailed.
Proof.
  induction authenticators as [|a l IH]; simpl; [discriminate|].
  destruct (authenticate a req tbl); [exact IH|discriminate|congruence].
Qed.

(** An exception is never answered with a success status, nor with
    serializer data. *)
Lemma handle_exception_status (header : option string) (e : Exception) :
  let s := status_code (handle_exception header e) in
  400 <= s /\ exists e', body (handle_exception header e) = Detail e'.
Proof.
  unfold handle_exception, exception_status.
  destruct e, header as [h|]; try destruct (String.eqb h ""); simpl;
    (split; [unfold HTTP_400_BAD_REQUEST, HTTP_401_UNAUTHORIZED, HTTP_403_FORBIDDEN,
               HTTP_404_NOT_FOUND, HTTP_405_METHOD_NOT_ALLOWED, HTTP_406_NOT_ACCEPTABLE,
               HTTP_415_UNSUPPORTED_MEDIA_TYPE, HTTP_429_TOO_MANY_REQUESTS,
               HTTP_500_INTERNAL_SERVER_ERROR; lia
            | eexists; reflexivity]).
Qed.

Lemma handle_exception_no_data (header : option string) (e : Exception) (d : Dict) :
  body (handle_exception header e) <> Data d.
Proof. destruct (handle_exception_status header e) as [_ [e' ->]]. discriminate. Qed.

(** The status of an authentication or permission error: 401 with a
    challenge to send, 403 without. *)
Lemma handle_exception_denied (header : option string) (e : Exception) :
  e = NotAuthenticated \/ e = AuthenticationFailed
  \/ (e = PermissionDenied /\ header = None) ->
  body (handle_exception header e) = Detail e
  /\ status_code (handle_exception header e)
     = match header with
       | Some h => if String.eqb h "" then HTTP_403_FORBIDDEN else HTTP_401_UNAUTHORIZED
       | None => HTTP_403_FORBIDDEN
       end
  /\ www_authenticate (handle_exception header e)
     = match header with
       | Some h => if String.eqb h "" then None else Some h
       | None => None
       end.
Proof.
  unfold handle_exception.
  intros [->|[->|[-> ->]]]; try destruct header as [h|]; try destruct (String.eqb h "");
    simpl; tauto.
Qed.
End Pipeline.

Section Profile.
Import Http Orm Drf SimpleJwt Accounts.

Variable UserSerializer : Serializer.
Variable settings : Settings.

Local Abbreviation view := (UserProfileView UserSerializer).
Local Abbreviation header :=
  (first_authenticate_header (DEFAULT_AUTHENTICATION_CLASSES settings)).

(** A request that content negotiation or versioning refuses is answered
    with that error and nothing else happens. *)
Lemma profile_unserved (req : HttpRequest) (tbl : Table) (x : Unserved) :
  before_authentication settings req = Some x ->
  dispatch settings view req tbl = (tbl, handle_exception header (unserved x)).
Proof. intros H. rewrite dispatch_unfold. cbv zeta. by rewrite H. Qed.

(** An authenticated request passes [IsAuthenticated] and, unless it is
    throttled, reaches the handler of its method with [request.user] set
    to that user. *)
Lemma profile_authenticated (req : HttpRequest) (tbl : Table) (u : User) :
  before_authentication settings req = None ->
  perform_authentication settings view req tbl = inr (AuthUser u) ->
  dispatch settings view req tbl =
    if allow_request settings req (AuthUser u) then
      match handler view (method req) with
      | None => (tbl, handle_exception header (MethodNotAllowed (method req)))
      | Some h =>
          match h {| _request := req; user := AuthUser u;
                     data := request_data settings req |} tbl with
          | (tbl', inr response) => (tbl', response)
          | (tbl', inl e) => (tbl', handle_exception header e)
          end
      end
    else (tbl, handle_exception header Throttled).
Proof.
  intros Hb Hauth. rewrite dispatch_unfold. cbv zeta. rewrite Hb, Hauth. reflexivity.
Qed.

(** A request that does not authenticate is stopped before any handler:
    the answer is the authentication exception and the table is as it
    was. *)
Lemma profile_unauthenticated (req : HttpRequest) (tbl : Table) :
  before_authentication settings req = None ->
  (forall u, perform_authentication settings view req tbl <> inr (AuthUser u)) ->
  exists e,
    (e = NotAuthenticated \/ e = AuthenticationFailed
     \/ (e = PermissionDenied /\ header = None))
    /\ dispatch settings view req tbl = (tbl, handle_exception header e).
Proof.
  intros Hb Hno. rewrite dispatch_unfold. cbv zeta. rewrite Hb.
  destruct (perform_authentication settings view req tbl) as [e|[|u]] eqn:Hauth.
  - apply _authenticate_raises in Hauth as ->.
    exists AuthenticationFailed. split; [tauto|reflexivity].
  - simpl. unfold permission_denied. simpl.
    change (get_authenticators settings view)
      with (DEFAULT_AUTHENTICATION_CLASSES settings).
    destruct (DEFAULT_AUTHENTICATION_CLASSES settings) as [|a l] eqn:Hl.
    + exists PermissionDenied. split; [tauto|reflexivity].
    + exists NotAuthenticated. split; [tauto|reflexivity].
  - exfalso. exact (Hno u eq_refl).
Qed.

(** What every request to the profile endpoint comes down to. *)
Lemma profile_cases (req : HttpRequest) (tbl : Table) :
  (exists x, before_authentication settings req = Some x)
  \/ (before_authentication settings req = None
      /\ forall u, perform_authentication settings view req tbl <> inr (AuthUser u))
  \/ (before_authentication settings req = None
      /\ exists u, perform_authentication settings view req tbl = inr (AuthUser u)).
Proof.
  destruct (before_authentication settings req) as [x|]; [left; eauto|right].
  destruct (perform_authentication settings view req tbl) as [e|[|u]];
    [left|left|right]; split; try reflexivity; try discriminate; eauto.
Qed.

(** C1. An authenticated GET, PUT or PATCH request to the profile
    endpoint works on the record of the requesting user and on no
    other.  Unless the request is refused by content negotiation or
    versioning, or throttled, in which case nothing is retrieved or
    updated, GET answers with the representation of [request.user]; PUT
    and PATCH validate the parsed data against that user, write the row
    under that user's primary key and answer with the representation of
    the updated user; data that does not parse or is invalid changes
    nothing. *)
Theorem profile_serves_requesting_user (req : HttpRequest) (tbl : Table) (u : User) :
  perform_authentication settings (UserProfileView UserSerializer) req tbl
    = inr (AuthUser u) ->
  method req = GET \/ method req = PUT \/ method req = PATCH ->
  dispatch settings (UserProfileView UserSerializer) req tbl =
    match before_authentication settings req with
    | Some x => (tbl, handle_exception header (unserved x))
    | None =>
        if allow_request settings req (AuthUser u) then
          if decide (method req = GET)
          then (tbl, mkResponse (to_representation UserSerializer u) HTTP_200_OK)
          else
            match request_data settings req with
            | inl e => (tbl, handle_exception header e)
            | inr d =>
                match run_validation UserSerializer (Some u)
                        (bool_decide (method req = PATCH)) d tbl with
                | inl errors =>
                    (tbl, {| body := Detail (ValidationError errors);
                             status_code := HTTP_400_BAD_REQUEST;
                             www_authenticate := None |})
                | inr validated =>
                    let u' :=
                      {| pk := pk u;
                         fields := update_fields UserSerializer (fields u) validated |} in
                    (<[pk u := fields u']> tbl,
                     mkResponse (to_representation UserSerializer u') HTTP_200_OK)
                end
            end
        else (tbl, handle_exception header Throttled)
    end.
Proof.
  intros Hauth Hm.
  destruct (before_authentication settings req) as [x|] eqn:Hb;
    [by apply profile_unserved|].
  rewrite (profile_authenticated req tbl u Hb Hauth).
  destruct (allow_request settings req (AuthUser u)); [|reflexivity].
  destruct Hm as [Hm|[Hm|Hm]]; rewrite Hm; simpl; unfold_handlers; simpl;
    try reflexivity;
    (destruct (request_data settings req) as [e|d]; simpl; [reflexivity|];
     destruct (run_validation UserSerializer (Some u) _ d tbl); reflexivity).
Qed.

(** C8. An authenticated PUT or PATCH request to the profile endpoint
    leaves every row other than the requesting user's own as it was. *)
Theorem profile_update_frame (req : HttpRequest) (tbl : Table) (u : User) (k : nat) :
  perform_authentication settings (UserProfileView UserSerializer) req tbl
    = inr (AuthUser u) ->
  method req = PUT \/ method req = PATCH ->
  k <> pk u ->
  fst (dispatch settings (UserProfileView UserSerializer) req tbl) !! k = tbl !! k.
Proof.
  intros Hauth Hm Hk.
  destruct (before_authentication settings req) as [x|] eqn:Hb;
    [by rewrite (profile_unserved req tbl x Hb)|].
  rewrite (profile_authenticated req tbl u Hb Hauth).
  destruct (allow_request settings req (AuthUser u)); [|reflexivity].
  destruct Hm as [Hm|Hm]; rewrite Hm; simpl; unfold_handlers; simpl;
    (destruct (request_data settings req) as [e|d]; simpl; [reflexivity|];
     destruct (run_validation UserSerializer (Some u) _ d tbl); simpl;
     [reflexivity|by rewrite lookup_insert_ne]).
Qed.
End Profile.

Section ProfileRejections.
Import Http Orm Drf SimpleJwt Accounts.

Variable UserSerializer : Serializer.
Variable settings : Settings.

Local Abbreviation view := (UserProfileView UserSerializer).
Local Abbreviation header :=
  (first_authenticate_header (DEFAULT_AUTHENTICATION_CLASSES settings)).

(** C2, as the code has it. A request to the profile endpoint that
    carries no valid authentication is rejected whatever its method, the
    table is left as it was and the answer carries an error, never user
    data.  When content negotiation and versioning let the request
    through, the error is the authentication error: status 401 with the
    challenge when the first configured authentication class advertises
    a [WWW-Authenticate] header, 403 otherwise; under the bearer
    authentication of this project it is 401.  A request that content
    negotiation or versioning refuses is answered 406 or 404 instead,
    before it is authenticated. *)
Theorem profile_unauthenticated_401 (req : HttpRequest) (tbl : Table) :
  (forall u,
     perform_authentication settings (UserProfileView UserSerializer) req tbl
       <> inr (AuthUser u)) ->
  let r := dispatch settings (UserProfileView UserSerializer) req tbl in
  fst r = tbl
  /\ (forall d, body (snd r) <> Data d)
  /\ match before_authentication settings req with
     | Some not_acceptable =>
         status_code (snd r) = HTTP_406_NOT_ACCEPTABLE
         /\ body (snd r) = Detail NotAcceptable
     | Some not_found =>
         status_code (snd r) = HTTP_404_NOT_FOUND
         /\ body (snd r) = Detail NotFound
     | None =>
         (body (snd r) = Detail NotAuthenticated
          \/ body (snd r) = Detail AuthenticationFailed
          \/ body (snd r) = Detail PermissionDenied)
         /\ status_code (snd r)
            = match header with
              | Some h =>
                  if String.eqb h "" then HTTP_403_FORBIDDEN else HTTP_401_UNAUTHORIZED
              | None => HTTP_403_FORBIDDEN
              end
         /\ www_authenticate (snd r)
            = match header with
              | Some h => if String.eqb h "" then None else Some h
              | None => None
              end
         /\ (forall jwt conf,
               settings = REST_FRAMEWORK jwt conf ->
               status_code (snd r) = HTTP_401_UNAUTHORIZED
               /\ www_authenticate (snd r) = Some bearer_realm)
     end.
Proof.
  intros Hno. cbv zeta.
  destruct (before_authentication settings req) as [x|] eqn:Hb.
  - rewrite (profile_unserved UserSerializer settings req tbl x Hb). simpl.
    split; [reflexivity|]. split; [apply handle_exception_no_data|].
    destruct x; split; reflexivity.
  - destruct (profile_unauthenticated UserSerializer settings req tbl Hb Hno)
      as (e & He & ->). simpl.
    destruct (handle_exception_denied header e He) as (Hbody & Hstatus & Hwww).
    split; [reflexivity|]. split; [apply handle_exception_no_data|].
    split; [|split; [exact Hstatus|split; [exact Hwww|]]].
    + rewrite Hbody. destruct He as [->|[->|[-> _]]]; tauto.
    + intros jwt conf ->. rewrite Hstatus, Hwww. split; reflexivity.
Qed.

(** C9, as the code has it. A DELETE request to the profile endpoint
    never deletes or changes a row and is always rejected, since the
    view has no [delete] handler; but method-not-allowed (405) is the
    last of the rejections.  Content negotiation and versioning come
    first (406, 404); then authentication and permissions: a request
    without valid authentication gets the authentication error (401
    with the challenge when the first configured authentication class
    advertises a [WWW-Authenticate] header, 403 otherwise); then the
    throttles (429); only an authenticated request that passes them all
    is answered 405. *)
Theorem profile_delete_rejected (req : HttpRequest) (tbl : Table) :
  method req = DELETE ->
  let r := dispatch settings (UserProfileView UserSerializer) req tbl in
  handler (UserProfileView UserSerializer) DELETE = None
  /\ fst r = tbl
  /\ match before_authentication settings req with
     | Some not_acceptable =>
         status_code (snd r) = HTTP_406_NOT_ACCEPTABLE
         /\ body (snd r) = Detail NotAcceptable
     | Some not_found =>
         status_code (snd r) = HTTP_404_NOT_FOUND
         /\ body (snd r) = Detail NotFound
     | None =>
         match perform_authentication settings (UserProfileView UserSerializer)
                 req tbl with
         | inr (AuthUser u) =>
             if allow_request settings req (AuthUser u)
             then status_code (snd r) = HTTP_405_METHOD_NOT_ALLOWED
                  /\ body (snd r) = Detail (MethodNotAllowed DELETE)
             else status_code (snd r) = HTTP_429_TOO_MANY_REQUESTS
                  /\ body (snd r) = Detail Throttled
         | _ =>
             (body (snd r) = Detail NotAuthenticated
              \/ body (snd r) = Detail AuthenticationFailed
              \/ body (snd r) = Detail PermissionDenied)
             /\ status_code (snd r)
                = match header with
                  | Some h =>
                      if String.eqb h "" then HTTP_403_FORBIDDEN
                      else HTTP_401_UNAUTHORIZED
                  | None => HTTP_403_FORBIDDEN
                  end
         end
     end.
Proof.
  intros Hm. cbv zeta. split; [reflexivity|].
  destruct (before_authentication settings req) as [x|] eqn:Hb.
  - rewrite (profile_unserved UserSerializer settings req tbl x Hb). simpl.
    split; [reflexivity|]. destruct x; split; reflexivity.
  - assert (Hno : (forall u, perform_authentication settings view req tbl
                             <> inr (AuthUser u)) ->
                  fst (dispatch settings view req tbl) = tbl
                  /\ (body (snd (dispatch settings view req tbl)) = Detail NotAuthenticated
                      \/ body (snd (dispatch settings view req tbl))
                         = Detail AuthenticationFailed
                      \/ body (snd (dispatch settings view req tbl))
                         = Detail PermissionDenied)
                     /\ status_code (snd (dispatch settings view req tbl))
                        = match header with
                          | Some h =>
                              if String.eqb h "" then HTTP_403_FORBIDDEN
                              else HTTP_401_UNAUTHORIZED
                          | None => HTTP_403_FORBIDDEN
                          end).
    { intros Hno.
      destruct (profile_unauthenticated UserSerializer settings req tbl Hb Hno)
        as (e & He & ->). simpl.
      destruct (handle_exception_denied header e He) as (Hbody & Hstatus & _).
      split; [reflexivity|]. split; [|exact Hstatus].
      rewrite Hbody. destruct He as [->|[->|[-> _]]]; tauto. }
    destruct (perform_authentication settings view req tbl) as [e|[|u]] eqn:Hauth.
    + apply Hno. discriminate.
    + apply Hno. discriminate.
    + rewrite (profile_authenticated UserSerializer settings req tbl u Hb Hauth), Hm.
      destruct (allow_request settings req (AuthUser u)); simpl; tauto.
Qed.
End ProfileRejections.

Section Registration.
Import Http Orm Drf SimpleJwt Accounts.

Variable UserSerializer : Serializer.
Variable settings : Settings.

Local Abbreviation view := (UserRegistrationView UserSerializer).
Local Abbreviation header :=
  (first_authenticate_header (DEFAULT_AUTHENTICATION_CLASSES settings)).

(** [AllowAny] lets every request through, whoever its user is. *)
Lemma registration_permissions (request : Request) :
  check_permissions (get_authenticators settings view) (permission_classes view) request
    = inr tt.
Proof. reflexivity. Qed.

(** A POST request that reaches the handler is answered by [create]. *)
Lemma registration_post (req : HttpRequest) (tbl : Table) (ru : RequestUser) :
  method req = POST ->
  before_authentication settings req = None ->
  perform_authentication settings view req tbl = inr ru ->
  allow_request settings req ru = true ->
  dispatch settings view req tbl =
    match request_data settings req with
    | inl e => (tbl, handle_exception header e)
    | inr d =>
        match run_validation UserSerializer None false d tbl with
        | inl errors =>
            (tbl, {| body := Detail (ValidationError errors);
                     status_code := HTTP_400_BAD_REQUEST;
                     www_authenticate := None |})
        | inr validated =>
            let u := {| pk := fresh (dom tbl);
                        fields := create_fields UserSerializer validated |} in
            (<[pk u := fields u]> tbl,
             mkResponse (to_representation UserSerializer u) HTTP_201_CREATED)
        end
    end.
Proof.
  intros Hm Hb Hauth Ht. rewrite dispatch_unfold. cbv zeta.
  rewrite Hb, Hauth. simpl. rewrite Ht, Hm. simpl.
  unfold_handlers. simpl.
  destruct (request_data settings req) as [e|d]; simpl; [reflexivity|].
  destruct (run_validation UserSerializer None false d tbl); reflexivity.
Qed.

(** C3, as the code has it. Registration needs no authentication: a
    POST request that content negotiation, versioning and the throttles
    let through, and on which authentication raises nothing (it carries
    no credentials, so that its user is anonymous, or credentials that
    are accepted), is answered by the create handler whoever its user
    is.  A payload that parses and validates is answered 201 with the
    representation of the new user and adds exactly one row, built from
    the validated data under a primary key that was not in use; every
    other row stays as it was.  A payload that does not parse or does
    not validate is answered with that error and adds nothing. *)
Theorem registration_open_and_creates (req : HttpRequest) (tbl : Table)
    (ru : RequestUser) :
  method req = POST ->
  before_authentication settings req = None ->
  perform_authentication settings (UserRegistrationView UserSerializer) req tbl
    = inr ru ->
  allow_request settings req ru = true ->
  tbl !! fresh (dom tbl) = None
  /\ dispatch settings (UserRegistrationView UserSerializer) req tbl =
     match request_data settings req with
     | inl e => (tbl, handle_exception header e)
     | inr d =>
         match run_validation UserSerializer None false d tbl with
         | inl errors =>
             (tbl, {| body := Detail (ValidationError errors);
                      status_code := HTTP_400_BAD_REQUEST;
                      www_authenticate := None |})
         | inr validated =>
             let u := {| pk := fresh (dom tbl);
                         fields := create_fields UserSerializer validated |} in
             (<[pk u := fields u]> tbl,
              mkResponse (to_representation UserSerializer u) HTTP_201_CREATED)
         end
     end.
Proof.
  intros Hm Hb Hauth Ht. split.
  - apply not_elem_of_dom, is_fresh.
  - by apply (registration_post req tbl ru).
Qed.

(** C5, as the code has it. A POST request to the registration
    endpoint whose payload parses and is valid is answered with status
    201, provided that content negotiation, versioning and the throttles
    let it through and that authentication raises nothing on it (it
    carries no credentials, or credentials that are accepted). *)
Theorem registration_valid_payload_201 (req : HttpRequest) (tbl : Table)
    (ru : RequestUser) (d validated : Dict) :
  method req = POST ->
  request_data settings req = inr d ->
  run_validation UserSerializer None false d tbl = inr validated ->
  before_authentication settings req = None ->
  perform_authentication settings (UserRegistrationView UserSerializer) req tbl
    = inr ru ->
  allow_request settings req ru = true ->
  status_code (snd (dispatch settings (UserRegistrationView UserSerializer) req tbl))
    = HTTP_201_CREATED.
Proof.
  intros Hm Hd Hv Hb Hauth Ht.
  rewrite (registration_post req tbl ru Hm Hb Hauth Ht), Hd, Hv. reflexivity.
Qed.
End Registration.

Section Login.
Import Http Orm Drf SimpleJwt Accounts.

Variable jwt : TokenBackend.
Variable settings : Settings.

(** C4. Login is open: the view runs no authenticator and allows every
    request, so no POST request is asked to authenticate, whatever
    credentials it carries.  Unless content negotiation, versioning or
    the throttles refuse it, or its body does not parse, a POST request
    is answered by the token handler: when the credentials in its data
    validate, with 200 and a token pair, the refresh token issued for
    the user and the access token derived from it; otherwise with the
    error of the validation.  The table is what the validation of the
    credentials leaves.  A successful answer (200) always carries a
    token pair. *)
Theorem login_open_and_returns_token_pair (req : HttpRequest) (tbl : Table) :
  method req = POST ->
  let r := dispatch settings (UserLoginView jwt) req tbl in
  perform_authentication settings (UserLoginView jwt) req tbl = inr AnonymousUser
  /\ has_permission AllowAny
       {| _request := req; user := AnonymousUser; data := request_data settings req |}
     = true
  /\ r = match before_authentication settings req with
         | Some x => (tbl, handle_exception (Some bearer_realm) (unserved x))
         | None =>
             if allow_request settings req AnonymousUser then
               match request_data settings req with
               | inl e => (tbl, handle_exception (Some bearer_realm) e)
               | inr d =>
                   match validate_credentials jwt d tbl with
                   | (tbl', inr u) =>
                       (tbl',
                        mkResponse (<["refresh" := for_user jwt u]>
                                      {["access" := access_token jwt (for_user jwt u)]})
                          HTTP_200_OK)
                   | (tbl', inl e) => (tbl', handle_exception (Some bearer_realm) e)
                   end
               end
             else (tbl, handle_exception (Some bearer_realm) Throttled)
         end
  /\ (status_code (snd r) = HTTP_200_OK ->
      exists refresh access : string,
        body (snd r) = Data (<["refresh" := refresh]> {["access" := access]})).
Proof.
  intros Hm. cbv zeta. split; [reflexivity|]. split; [reflexivity|].
  assert (Hnot200 : forall h e, status_code (handle_exception h e) = HTTP_200_OK -> False).
  { intros h e H. pose proof (handle_exception_status h e) as [Hs _].
    simpl in Hs. rewrite H in Hs. unfold HTTP_200_OK in Hs. lia. }
  rewrite dispatch_unfold. cbv zeta.
  change (perform_authentication settings (UserLoginView jwt) req tbl)
    with (@inr Exception _ AnonymousUser).
  destruct (before_authentication settings req) as [x|]; simpl.
  { split; [reflexivity|]. first [discriminate|intros H; by apply Hnot200 in H]. }
  destruct (allow_request settings req AnonymousUser); simpl.
  2: { split; [reflexivity|]. first [discriminate|intros H; by apply Hnot200 in H]. }
  rewrite Hm. simpl. unfold_handlers. simpl.
  destruct (request_data settings req) as [e|d]; simpl.
  { split; [reflexivity|]. first [discriminate|intros H; by apply Hnot200 in H]. }
  destruct (validate_credentials jwt d tbl) as [tbl' [e|u]]; simpl.
  - split; [reflexivity|]. first [discriminate|intros H; by apply Hnot200 in H].
  - split; [reflexivity|]. intros _. eauto.
Qed.
End Login.

(* ===================================================================== *)
(** * The properties on the sample deployment                            *)
(* ===================================================================== *)

Section OnTheSample.
Import Http Orm Drf SimpleJwt Accounts Django Config Sample.

Lemma api_prefix_routed_to_its_module_witness :
  In ("api/books/", "apps.books.urls") api_routes
  /\ resolve urlconf_resolve urlpatterns "api/books/42/"
     = Some (MatchMounted (include "apps.books.urls") "42/" "apps.books.urls:42/").
Proof.
  assert (Hin : In ("api/books/", "apps.books.urls") api_routes) by (simpl; tauto).
  split; [exact Hin|].
  exact (proj1 (api_prefix_routed_to_its_module urlconf_resolve
                  "api/books/" "apps.books.urls" "42/" Hin)).
Defined.

Lemma profile_serves_requesting_user_witness :
  perform_authentication settings (UserProfileView serializer) patch_by_alice table
    = inr (AuthUser alice)
  /\ method patch_by_alice = PATCH
  /\ dispatch settings (UserProfileView serializer) patch_by_alice table
     = (<[1 := <["username" := "alicia"]> {["password" := "wonderland"]}]> table,
        mkResponse {["username" := "alicia"]} HTTP_200_OK).
Proof.
  assert (Hauth : perform_authentication settings (UserProfileView serializer)
                    patch_by_alice table = inr (AuthUser alice))
    by (vm_compute; reflexivity).
  split; [exact Hauth|]. split; [reflexivity|].
  rewrite (profile_serves_requesting_user serializer settings patch_by_alice table
             alice Hauth (or_intror (or_intror eq_refl))).
  vm_compute. reflexivity.
Defined.

Lemma profile_update_frame_witness :
  perform_authentication settings (UserProfileView serializer) patch_by_alice table
    = inr (AuthUser alice)
  /\ method patch_by_alice = PATCH
  /\ 2 <> pk alice
  /\ fst (dispatch settings (UserProfileView serializer) patch_by_alice table) !! 2
     = table !! 2.
Proof.
  assert (Hauth : perform_authentication settings (UserProfileView serializer)
                    patch_by_alice table = inr (AuthUser alice))
    by (vm_compute; reflexivity).
  assert (Hk : 2 <> pk alice) by (simpl; lia).
  split; [exact Hauth|]. split; [reflexivity|]. split; [exact Hk|].
  exact (profile_update_frame serializer settings patch_by_alice table alice 2
           Hauth (or_intror eq_refl) Hk).
Defined.

Lemma profile_unauthenticated_401_witness :
  (forall u, perform_authentication settings (UserProfileView serializer)
               get_without_credentials table <> inr (AuthUser u))
  /\ before_authentication settings get_without_credentials = None
  /\ status_code (snd (dispatch settings (UserProfileView serializer)
                         get_without_credentials table)) = HTTP_401_UNAUTHORIZED
  /\ www_authenticate (snd (dispatch settings (UserProfileView serializer)
                              get_without_credentials table)) = Some bearer_realm.
Proof.
  assert (Hno : forall u, perform_authentication settings (UserProfileView serializer)
                            get_without_credentials table <> inr (AuthUser u))
    by (intros u; vm_compute; discriminate).
  split; [exact Hno|]. split; [reflexivity|].
  pose proof (profile_unauthenticated_401 serializer settings get_without_credentials
                table Hno) as (_ & _ & H).
  change (before_authentication settings get_without_credentials)
    with (@None Unserved) in H.
  destruct H as (_ & _ & _ & H). exact (H jwt conf eq_refl).
Defined.

(** C2, counterexample. A GET request without credentials that accepts
    only XML carries no valid authentication, and it is answered 406, not
    401: content negotiation comes before authentication. *)
Lemma profile_unacceptable_without_credentials_406 :
  (forall u, perform_authentication settings (UserProfileView serializer)
               get_xml_without_credentials table <> inr (AuthUser u))
  /\ status_code (snd (dispatch settings (UserProfileView serializer)
                         get_xml_without_credentials table)) = HTTP_406_NOT_ACCEPTABLE
  /\ status_code (snd (dispatch settings (UserProfileView serializer)
                         get_xml_without_credentials table)) <> HTTP_401_UNAUTHORIZED.
Proof.
  split; [intros u; vm_compute; discriminate|].
  split; [vm_compute; reflexivity|]. vm_compute. discriminate.
Qed.

Lemma registration_open_and_creates_witness :
  method register_carol = POST
  /\ before_authentication settings register_carol = None
  /\ perform_authentication settings (UserRegistrationView serializer) register_carol table
     = inr AnonymousUser
  /\ allow_request settings register_carol AnonymousUser = true
  /\ dispatch settings (UserRegistrationView serializer) register_carol table
     = (<[3 := carol]> table, mkResponse {["username" := "carol"]} HTTP_201_CREATED).
Proof.
  assert (Hauth : perform_authentication settings (UserRegistrationView serializer)
                    register_carol table = inr AnonymousUser)
    by (vm_compute; reflexivity).
  split; [reflexivity|]. split; [reflexivity|]. split; [exact Hauth|].
  split; [reflexivity|].
  rewrite (proj2 (registration_open_and_creates serializer settings register_carol table
                    AnonymousUser eq_refl eq_refl Hauth eq_refl)).
  vm_compute. reflexivity.
Defined.

(** C3, counterexample. Two POST requests to the registration
    endpoint that are not accepted.  The first carries a bearer token
    which does not validate: it is answered with the challenge of the
    bearer scheme, 401, although the view allows anyone.  The second
    carries no credentials and accepts only XML: it is answered 406.
    Neither adds a row. *)
Lemma registration_posts_rejected :
  (method register_carol_with_stale_token = POST
   /\ dispatch settings (UserRegistrationView serializer)
        register_carol_with_stale_token table
      = (table, {| body := Detail AuthenticationFailed;
                   status_code := HTTP_401_UNAUTHORIZED;
                   www_authenticate := Some bearer_realm |}))
  /\ (method register_carol_accepting_xml = POST
      /\ dispatch settings (UserRegistrationView serializer)
           register_carol_accepting_xml table
         = (table, {| body := Detail NotAcceptable;
                      status_code := HTTP_406_NOT_ACCEPTABLE;
                      www_authenticate := None |})).
Proof.
  split; (split; [reflexivity|vm_compute; reflexivity]).
Qed.

Lemma registration_valid_payload_201_witness :
  method register_carol = POST
  /\ request_data settings register_carol = inr carol
  /\ run_validation serializer None false carol table = inr carol
  /\ before_authentication settings register_carol = None
  /\ perform_authentication settings (UserRegistrationView serializer) register_carol table
     = inr AnonymousUser
  /\ allow_request settings register_carol AnonymousUser = true
  /\ status_code (snd (dispatch settings (UserRegistrationView serializer)
                         register_carol table)) = HTTP_201_CREATED.
Proof.
  assert (Hd : request_data settings register_carol = inr carol)
    by (vm_compute; reflexivity).
  assert (Hv : run_validation serializer None false carol table = inr carol)
    by (vm_compute; reflexivity).
  assert (Hauth : perform_authentication settings (UserRegistrationView serializer)
                    register_carol table = inr AnonymousUser)
    by (vm_compute; reflexivity).
  split; [reflexivity|]. split; [exact Hd|]. split; [exact Hv|].
  split; [reflexivity|]. split; [exact Hauth|]. split; [reflexivity|].
  exact (registration_valid_payload_201 serializer settings register_carol table
           AnonymousUser carol carol eq_refl Hd Hv eq_refl Hauth eq_refl).
Defined.

(** C5, counterexample. Two registration POSTs with a valid payload
    that are not answered 201: one carries a bearer token that does not
    validate and is answered 401, the other accepts only XML and is
    answered 406.  Authentication and content negotiation run before the
    permission classes and the handler, also on a view that allows
    anyone. *)
Lemma registration_valid_payload_not_created :
  (method register_carol_with_stale_token = POST
   /\ request_data settings register_carol_with_stale_token = inr carol
   /\ run_validation serializer None false carol table = inr carol
   /\ status_code (snd (dispatch settings (UserRegistrationView serializer)
                          register_carol_with_stale_token table))
      = HTTP_401_UNAUTHORIZED)
  /\ (method register_carol_accepting_xml = POST
      /\ request_data settings register_carol_accepting_xml = inr carol
      /\ run_validation serializer None false carol table = inr carol
      /\ status_code (snd (dispatch settings (UserRegistrationView serializer)
                             register_carol_accepting_xml table))
         = HTTP_406_NOT_ACCEPTABLE)
  /\ HTTP_401_UNAUTHORIZED <> HTTP_201_CREATED
  /\ HTTP_406_NOT_ACCEPTABLE <> HTTP_201_CREATED.
Proof.
  repeat split; try (vm_compute; reflexivity); discriminate.
Qed.

Lemma login_open_and_returns_token_pair_witness :
  method login_alice = POST
  /\ snd (dispatch settings (UserLoginView jwt) login_alice table)
     = mkResponse (<["refresh" := "refresh-of-alice"]>
                     {["access" := "access-from-refresh-of-alice"]}) HTTP_200_OK.
Proof.
  split; [reflexivity|].
  pose proof (login_open_and_returns_token_pair jwt settings login_alice table eq_refl)
    as (_ & _ & H & _).
  rewrite H. vm_compute. reflexivity.
Defined.

Lemma profile_delete_rejected_witness :
  method delete_by_alice = DELETE
  /\ status_code (snd (dispatch settings (UserProfileView serializer)
                         delete_by_alice table)) = HTTP_405_METHOD_NOT_ALLOWED.
Proof.
  split; [reflexivity|].
  pose proof (profile_delete_rejected serializer settings delete_by_alice table eq_refl)
    as (_ & _ & H).
  change (before_authentication settings delete_by_alice) with (@None Unserved) in H.
  assert (Hauth : perform_authentication settings (UserProfileView serializer)
                    delete_by_alice table = inr (AuthUser alice))
    by (vm_compute; reflexivity).
  rewrite Hauth in H. exact (proj1 H).
Defined.

(** C9, counterexample. A DELETE request without credentials is a
    DELETE request to the profile endpoint, and it is answered with
    401, not with method-not-allowed. *)
Lemma profile_delete_without_credentials_401 :
  method delete_without_credentials = DELETE
  /\ status_code (snd (dispatch settings (UserProfileView serializer)
                         delete_without_credentials table)) = HTTP_401_UNAUTHORIZED
  /\ status_code (snd (dispatch settings (UserProfileView serializer)
                         delete_without_credentials table))
     <> HTTP_405_METHOD_NOT_ALLOWED.
Proof.
  split; [reflexivity|]. split; [vm_compute; reflexivity|].
  vm_compute. discriminate.
Qed.
End OnTheSample.
(* ===================================================================== *)
(** * Further properties of the URL table                                *)
(* ===================================================================== *)

Section RoutingTable.
Import Http Django Config.

Context {Handler : Type}.
Variable urlconf_resolve : urlconf -> string -> option Handler.

Lemma strip_prefix_Some (r p rest : string) :
  strip_prefix r p = Some rest -> p = r +:+ rest.
Proof.
  revert p. induction r as [|a r IH]; intros p; simpl.
  - by intros [= ->].
  - destruct p as [|b p]; [discriminate|].
    destruct (Ascii.eqb a b) eqn:Hab; [|discriminate].
    apply Ascii.eqb_eq in Hab as ->. intros H. by rewrite (IH p H).
Qed.

(** Entries that do not match a path play no part in resolving it. *)
Lemma resolve_matching (pats : list URLPattern) (p : string) :
  resolve urlconf_resolve pats p = resolve urlconf_resolve (matching pats p) p.
Proof.
  unfold matching. induction pats as [|pat pats IH]; simpl; [reflexivity|].
  destruct (pattern_match pat p) as [r|] eqn:Hp; simpl; [|exact IH].
  rewrite Hp. destruct (callback pat); [reflexivity|].
  destruct (urlconf_resolve u r); [reflexivity|exact IH].
Qed.

Lemma matching_Permutation (pats pats' : list URLPattern) (p : string) :
  Permutation pats pats' -> Permutation (matching pats p) (matching pats' p).
Proof.
  unfold matching. induction 1 as [|x l l' _ IH|x y l|l l' l'' _ IH1 _ IH2]; simpl.
  - constructor.
  - destruct (bool_decide _); [by constructor|exact IH].
  - repeat destruct (bool_decide _); try reflexivity. constructor.
  - by etransitivity.
Qed.

(** What a match says about the path. *)
Lemma pattern_match_Some (pat : URLPattern) (p r : string) :
  pattern_match pat p = Some r ->
  match callback pat with
  | as_view _ _ => p = route pat
  | mount _ => p = route pat +:+ r
  end.
Proof.
  unfold pattern_match. destruct (callback pat).
  - destruct (String.eqb (route pat) p) eqn:He; [|discriminate].
    intros _. symmetry. by apply String.eqb_eq.
  - apply strip_prefix_Some.
Qed.

Lemma matched_entry (p : string) (pat : URLPattern) (l : list URLPattern) :
  matching urlpatterns p = pat :: l ->
  In pat urlpatterns /\ exists r, pattern_match pat p = Some r.
Proof.
  intros H.
  assert (Hin : In pat (matching urlpatterns p)) by (rewrite H; left; reflexivity).
  apply filter_In in Hin as [Hin Hm]. apply bool_decide_eq_true in Hm as [r Hm].
  eauto.
Qed.

Lemma matching_at_most_one (p : string) :
  length (matching urlpatterns p) <= 1.
Proof.
  destruct (matching urlpatterns p) as [|pat l] eqn:H; [simpl; lia|].
  destruct (matched_entry p pat l H) as (Hin & r & Hm).
  apply pattern_match_Some in Hm. unfold urlpatterns in Hin. simpl in Hin.
  destruct Hin as [<-|[<-|[<-|[<-|[<-|[<-|[<-|[<-|[]]]]]]]]];
    cbn [callback route] in Hm; subst p;
    match type of H with
    | ?m = _ => assert (Hone : length m = 1) by reflexivity
    end;
    rewrite H in Hone; exact (Nat.eq_le_incl _ _ Hone).
Qed.

(** X1. No two entries of the table match the same path: entries that both
    match a path are one and the same entry. *)
Theorem urlpatterns_disjoint (p r1 r2 : string) (pat1 pat2 : URLPattern) :
  In pat1 urlpatterns -> In pat2 urlpatterns ->
  pattern_match pat1 p = Some r1 -> pattern_match pat2 p = Some r2 ->
  pat1 = pat2 /\ r1 = r2.
Proof.
  intros Hin1 Hin2 Hm1 Hm2.
  assert (Hboth : forall pat r, In pat urlpatterns -> pattern_match pat p = Some r ->
                                In pat (matching urlpatterns p)).
  { intros pat r Hin Hm. apply filter_In. split; [exact Hin|].
    apply bool_decide_eq_true. rewrite Hm. eauto. }
  pose proof (Hboth _ _ Hin1 Hm1) as H1. pose proof (Hboth _ _ Hin2 Hm2) as H2.
  pose proof (matching_at_most_one p) as Hlen.
  destruct (matching urlpatterns p) as [|pat [|pat' l]]; simpl in *; [tauto| |lia].
  destruct H1 as [<-|[]], H2 as [<-|[]]. split; [reflexivity|congruence].
Qed.

(** X2. The order of the entries does not matter: any rearrangement of the
    table resolves every path the same way, whatever the mounted
    URLconfs do.  In particular the empty route of the Swagger UI, listed
    before the API routes, takes nothing from them. *)
Theorem resolve_order_irrelevant (pats : list URLPattern) (p : string) :
  Permutation pats urlpatterns ->
  resolve urlconf_resolve pats p = resolve urlconf_resolve urlpatterns p.
Proof.
  intros HP. rewrite (resolve_matching pats), (resolve_matching urlpatterns).
  pose proof (matching_Permutation _ _ p HP) as Hm.
  pose proof (matching_at_most_one p) as Hlen.
  destruct (matching urlpatterns p) as [|pat [|pat' l]]; simpl in Hlen; [| |lia].
  - apply Permutation_sym, Permutation_nil in Hm. by rewrite Hm.
  - apply Permutation_sym, Permutation_length_1_inv in Hm. by rewrite Hm.
Qed.

(** X3. The documentation endpoints are exact: a path that continues after
    [api/schema/] or [api/redoc/] is not routed anywhere. *)
Theorem documentation_endpoints_exact (rest : string) :
  rest <> "" ->
  resolve urlconf_resolve urlpatterns ("api/schema/" +:+ rest) = None
  /\ resolve urlconf_resolve urlpatterns ("api/redoc/" +:+ rest) = None.
Proof.
  intros Hne. destruct rest as [|c rest]; [congruence|].
  split; reflexivity.
Qed.

(** X4. A path that is none of the three endpoints and begins with none of
    the five mounted prefixes is not routed: no URLconf is even asked. *)
Theorem unrouted_path_not_found (p : string) :
  ~ In p ["api/schema/"; ""; "api/redoc/"] ->
  (forall prefix rest,
     In prefix ["admin/"; "api/auth/"; "api/books/"; "api/circulations/"; "api/fines/"] ->
     p <> prefix +:+ rest) ->
  matching urlpatterns p = []
  /\ resolve urlconf_resolve urlpatterns p = None.
Proof.
  intros Hend Hpre.
  assert (Hm : matching urlpatterns p = []).
  { destruct (matching urlpatterns p) as [|pat l] eqn:H; [reflexivity|]. exfalso.
    destruct (matched_entry p pat l H) as (Hin & r & Hm).
    apply pattern_match_Some in Hm. unfold urlpatterns in Hin. simpl in Hin.
    destruct Hin as [<-|[<-|[<-|[<-|[<-|[<-|[<-|[<-|[]]]]]]]]];
      cbn [callback route] in Hm;
      first [ apply (Hpre _ r) in Hm; [exact Hm|simpl; tauto]
            | apply Hend; rewrite Hm; simpl; tauto ]. }
  split; [exact Hm|]. by rewrite resolve_matching, Hm.
Qed.
(** X6. The [url_name] handed to the Swagger UI and Redoc views is a
    name that the table itself defines, once: exactly one entry of
    [urlpatterns] carries it, and that entry is the schema endpoint. *)
Theorem url_name_names_the_schema_endpoint (pat : URLPattern) (v : view_class)
    (n : string) :
  In pat urlpatterns ->
  callback pat = as_view v (Some n) ->
  named urlpatterns n = [path "api/schema/" (as_view SpectacularAPIView None) (Some n)].
Proof.
  intros Hin Hc. unfold urlpatterns in Hin. simpl in Hin.
  destruct Hin as [<-|[<-|[<-|[<-|[<-|[<-|[<-|[<-|[]]]]]]]]];
    cbn [callback] in Hc; try discriminate;
    injection Hc as <- <-; reflexivity.
Qed.
End RoutingTable.

Section RoutingTableOnTheSample.
Import Http Django Config Sample.

Lemma urlpatterns_disjoint_witness :
  In (path "api/fines/" (mount (include "apps.fines.urls")) None) urlpatterns
  /\ pattern_match (path "api/fines/" (mount (include "apps.fines.urls")) None)
       "api/fines/7/pay/" = Some "7/pay/"
  /\ (path "api/fines/" (mount (include "apps.fines.urls")) None
      = path "api/fines/" (mount (include "apps.fines.urls")) None
      /\ "7/pay/" = "7/pay/").
Proof.
  assert (Hin : In (path "api/fines/" (mount (include "apps.fines.urls")) None)
                  urlpatterns) by (simpl; tauto).
  assert (Hm : pattern_match (path "api/fines/" (mount (include "apps.fines.urls")) None)
                 "api/fines/7/pay/" = Some "7/pay/") by reflexivity.
  split; [exact Hin|]. split; [exact Hm|].
  exact (urlpatterns_disjoint "api/fines/7/pay/" _ _ _ _ Hin Hin Hm Hm).
Defined.

Lemma resolve_order_irrelevant_witness :
  Permutation (rev urlpatterns) urlpatterns
  /\ resolve urlconf_resolve (rev urlpatterns) "api/books/42/"
     = resolve urlconf_resolve urlpatterns "api/books/42/".
Proof.
  assert (HP : Permutation (rev urlpatterns) urlpatterns)
    by (apply Permutation_sym, Permutation_rev).
  split; [exact HP|].
  exact (resolve_order_irrelevant urlconf_resolve (rev urlpatterns) "api/books/42/" HP).
Defined.

Lemma documentation_endpoints_exact_witness :
  "openapi.json" <> ""
  /\ resolve urlconf_resolve urlpatterns "api/schema/openapi.json" = None.
Proof.
  assert (Hne : "openapi.json" <> "") by discriminate.
  split; [exact Hne|].
  exact (proj1 (documentation_endpoints_exact urlconf_resolve "openapi.json" Hne)).
Defined.

Lemma unrouted_path_not_found_witness :
  ~ In "api/schema" ["api/schema/"; ""; "api/redoc/"]
  /\ resolve urlconf_resolve urlpatterns "api/schema" = None.
Proof.
  assert (Hend : ~ In "api/schema" ["api/schema/"; ""; "api/redoc/"])
    by (simpl; intros [H|[H|[H|[]]]]; discriminate).
  split; [exact Hend|].
  refine (proj2 (unrouted_path_not_found urlconf_resolve "api/schema" Hend _)).
  intros prefix rest Hin. simpl in Hin.
  destruct Hin as [<-|[<-|[<-|[<-|[<-|[]]]]]]; intros H; vm_compute in H; discriminate.
Defined.

Lemma url_name_names_the_schema_endpoint_witness :
  In (path "" (as_view SpectacularSwaggerView (Some "schema")) (Some "swagger-ui"))
    urlpatterns
  /\ named urlpatterns "schema"
     = [path "api/schema/" (as_view SpectacularAPIView None) (Some "schema")].
Proof.
  assert (Hin : In (path "" (as_view SpectacularSwaggerView (Some "schema"))
                      (Some "swagger-ui")) urlpatterns) by (simpl; tauto).
  split; [exact Hin|].
  exact (url_name_names_the_schema_endpoint _ _ _ Hin eq_refl).
Defined.
End RoutingTableOnTheSample.

(* ===================================================================== *)
(** * Further properties of the account views                            *)
(* ===================================================================== *)

Section RegistrationFurther.
Import Http Orm Drf SimpleJwt Accounts.

Variable UserSerializer : Serializer.
Variable settings : Settings.

Local Abbreviation view := (UserRegistrationView UserSerializer).

(** X7. The registration endpoint writes only when it creates: if a request
    leaves the table different from what it was, the request was a POST
    and the answer is 201.  No other method, and no rejected or invalid
    POST, changes anything. *)
Theorem registration_writes_only_on_created (req : HttpRequest) (tbl : Table) :
  fst (dispatch settings (UserRegistrationView UserSerializer) req tbl) <> tbl ->
  method req = POST
  /\ status_code (snd (dispatch settings (UserRegistrationView UserSerializer) req tbl))
     = HTTP_201_CREATED.
Proof.
  rewrite dispatch_unfold. cbv zeta.
  destruct (before_authentication settings req) as [x|];
    [intros H; exfalso; by apply H|].
  destruct (perform_authentication settings view req tbl) as [e|ru];
    [intros H; exfalso; by apply H|].
  simpl. destruct (allow_request settings req ru); [|intros H; exfalso; by apply H].
  destruct (method req); simpl; try (intros H; exfalso; by apply H).
  unfold_handlers. simpl.
  destruct (request_data settings req) as [e|d]; simpl;
    [intros H; exfalso; by apply H|].
  destruct (run_validation UserSerializer None false d tbl); simpl;
    [intros H; exfalso; by apply H|]. done.
Qed.

(** X8. Registration never overwrites or removes a user: whatever the
    request, every row of the table is still there, unchanged, and the
    table has one row more exactly when the answer is 201. *)
Theorem registration_preserves_existing (req : HttpRequest) (tbl : Table) :
  let r := dispatch settings (UserRegistrationView UserSerializer) req tbl in
  tbl ⊆ fst r
  /\ size (fst r)
     = if decide (status_code (snd r) = HTTP_201_CREATED)
       then S (size tbl) else size tbl.
Proof.
  cbv zeta. rewrite dispatch_unfold. cbv zeta.
  pose proof (fun h e => proj1 (handle_exception_status h e)) as Hst. simpl in Hst.
  assert (Herr : forall h e,
            size tbl
            = if decide (status_code (handle_exception h e) = HTTP_201_CREATED)
              then S (size tbl) else size tbl).
  { intros h e. specialize (Hst h e). case_decide as H; [|reflexivity].
    rewrite H in Hst. unfold HTTP_201_CREATED in Hst. lia. }
  destruct (before_authentication settings req) as [x|]; simpl;
    [split; [reflexivity|apply Herr]|].
  destruct (perform_authentication settings view req tbl) as [e|ru]; simpl;
    [split; [reflexivity|apply Herr]|].
  destruct (allow_request settings req ru);
    [|split; [reflexivity|exact (Herr None Throttled)]].
  destruct (method req); simpl;
    try (split; [reflexivity|first [apply Herr|reflexivity]]).
  unfold_handlers. simpl.
  destruct (request_data settings req) as [e|d]; simpl;
    [split; [reflexivity|apply Herr]|].
  destruct (run_validation UserSerializer None false d tbl)
    as [errors|validated]; simpl.
  - split; [reflexivity|]. exact (Herr None (ValidationError errors)).
  - assert (Hfresh : tbl !! fresh (dom tbl) = None)
      by apply not_elem_of_dom, is_fresh.
    split; [by apply insert_subseteq|]. by apply map_size_insert_None.
Qed.

(** X9. The registration endpoint never lists users: a request with a
    method other than POST changes nothing and its answer carries no
    serializer data, although the view declares the queryset of all
    users. *)
Theorem registration_never_lists (req : HttpRequest) (tbl : Table) :
  method req <> POST ->
  let r := dispatch settings (UserRegistrationView UserSerializer) req tbl in
  fst r = tbl /\ forall d, body (snd r) <> Data d.
Proof.
  intros Hm. cbv zeta. rewrite dispatch_unfold. cbv zeta.
  destruct (before_authentication settings req) as [x|]; simpl;
    [split; [reflexivity|apply handle_exception_no_data]|].
  destruct (perform_authentication settings view req tbl) as [e|ru]; simpl;
    [split; [reflexivity|apply handle_exception_no_data]|].
  destruct (allow_request settings req ru);
    [|split; [reflexivity|discriminate]].
  destruct (method req); simpl; try congruence;
    (split; [reflexivity|try apply handle_exception_no_data; try discriminate]).
Qed.
End RegistrationFurther.

Section LoginFurther.
Import Http Orm Drf SimpleJwt Accounts.

Variable jwt : TokenBackend.
Variable settings : Settings.

(** X10. The login endpoint issues tokens to POST requests only: a
    request with any other method changes nothing in the user table and
    its answer carries no data. *)
Theorem login_only_post_gets_tokens (req : HttpRequest) (tbl : Table) :
  method req <> POST ->
  let r := dispatch settings (UserLoginView jwt) req tbl in
  fst r = tbl /\ forall d, body (snd r) <> Data d.
Proof.
  intros Hm. cbv zeta. rewrite dispatch_unfold. cbv zeta.
  change (perform_authentication settings (UserLoginView jwt) req tbl)
    with (@inr Exception _ AnonymousUser).
  destruct (before_authentication settings req) as [x|]; simpl;
    [split; [reflexivity|apply handle_exception_no_data]|].
  destruct (allow_request settings req AnonymousUser); simpl;
    [|split; [reflexivity|discriminate]].
  destruct (method req); simpl; try congruence;
    (split; [reflexivity|discriminate]).
Qed.
End LoginFurther.

Section ProfileFurther.
Import Http Orm Drf SimpleJwt Accounts.

Variable UserSerializer : Serializer.

Local Abbreviation view := (UserProfileView UserSerializer).

(** X11. Whatever the settings, a request to the profile endpoint that
    does not authenticate is served nothing: the table is as it was and
    the answer is an error (a status of 400 or more, carrying the error
    and no serializer data), at whichever step the request is stopped. *)
Theorem profile_unauthenticated_rejected (settings : Settings) (req : HttpRequest)
    (tbl : Table) :
  (forall u, perform_authentication settings (UserProfileView UserSerializer) req tbl
             <> inr (AuthUser u)) ->
  let r := dispatch settings (UserProfileView UserSerializer) req tbl in
  fst r = tbl
  /\ 400 <= status_code (snd r)
  /\ exists e, body (snd r) = Detail e.
Proof.
  intros Hno. cbv zeta.
  destruct (before_authentication settings req) as [x|] eqn:Hb.
  - rewrite (profile_unserved UserSerializer settings req tbl x Hb).
    split; [reflexivity|]. apply (handle_exception_status _ (unserved x)).
  - destruct (profile_unauthenticated UserSerializer settings req tbl Hb Hno)
      as (e & _ & ->).
    split; [reflexivity|]. apply (handle_exception_status _ e).
Qed.

(** X13. The profile endpoint writes only when it updates: if a request
    leaves the table different from what it was, the request was an
    authenticated PUT or PATCH and the answer is 200. *)
Theorem profile_writes_only_on_update (settings : Settings) (req : HttpRequest)
    (tbl : Table) :
  fst (dispatch settings (UserProfileView UserSerializer) req tbl) <> tbl ->
  (method req = PUT \/ method req = PATCH)
  /\ status_code (snd (dispatch settings (UserProfileView UserSerializer) req tbl))
     = HTTP_200_OK
  /\ exists u, perform_authentication settings (UserProfileView UserSerializer) req tbl
               = inr (AuthUser u).
Proof.
  destruct (profile_cases UserSerializer settings req tbl)
    as [[x Hb]|[[Hb Hno]|[Hb [u Hauth]]]].
  - rewrite (profile_unserved UserSerializer settings req tbl x Hb).
    intros H. exfalso. by apply H.
  - destruct (profile_unauthenticated UserSerializer settings req tbl Hb Hno)
      as (e & _ & ->). intros H. exfalso. by apply H.
  - rewrite (profile_authenticated UserSerializer settings req tbl u Hb Hauth).
    destruct (allow_request settings req (AuthUser u));
      [|intros H; exfalso; by apply H].
    destruct (method req); simpl; try (intros H; exfalso; by apply H);
      unfold_handlers; simpl;
      (destruct (request_data settings req) as [e|d]; simpl;
       [intros H; exfalso; by apply H|]);
      destruct (run_validation UserSerializer (Some u) _ d tbl); simpl;
      try (intros H; exfalso; by apply H); intros _; eauto.
Qed.

Variable jwt : TokenBackend.
Variable conf : Settings.

(** Under bearer authentication the user of an authenticated request is
    a row of the table. *)
Lemma jwt_authenticated (v : APIView) (req : HttpRequest) (tbl : Table) (u : User) :
  authentication_classes v = None ->
  perform_authentication (REST_FRAMEWORK jwt conf) v req tbl = inr (AuthUser u) ->
  tbl !! pk u = Some (fields u).
Proof.
  intros Hv. unfold perform_authentication, get_authenticators. rewrite Hv. simpl.
  destruct (META req !! "HTTP_AUTHORIZATION") as [h|]; [|discriminate].
  destruct (split h) as [|scheme parts]; [discriminate|].
  destruct (String.eqb scheme "Bearer"); [|discriminate].
  destruct parts as [|raw [|]]; [discriminate| |discriminate].
  destruct (decode jwt raw) as [user_id|]; [|discriminate].
  destruct (tbl !! user_id) as [f|] eqn:Hrow; [|discriminate].
  destruct (user_is_active jwt f); [|discriminate].
  intros [= <-]. exact Hrow.
Qed.

(** X14. Under bearer authentication the profile endpoint neither adds nor
    removes a user: after any request the table has the primary keys it
    had before. *)
Theorem profile_keeps_the_users (req : HttpRequest) (tbl : Table) :
  dom (fst (dispatch (REST_FRAMEWORK jwt conf) (UserProfileView UserSerializer) req tbl))
    = dom tbl.
Proof.
  destruct (profile_cases UserSerializer (REST_FRAMEWORK jwt conf) req tbl)
    as [[x Hb]|[[Hb Hno]|[Hb [u Hauth]]]].
  - by rewrite (profile_unserved UserSerializer _ req tbl x Hb).
  - by destruct (profile_unauthenticated UserSerializer _ req tbl Hb Hno) as (e & _ & ->).
  - pose proof (jwt_authenticated view req tbl u eq_refl Hauth) as Hrow.
    rewrite (profile_authenticated UserSerializer _ req tbl u Hb Hauth).
    destruct (allow_request _ req (AuthUser u)); [|reflexivity].
    destruct (method req); simpl; try reflexivity;
      unfold_handlers; simpl;
      (destruct (request_data _ req) as [e|d]; simpl; [reflexivity|]);
      destruct (run_validation UserSerializer (Some u) _ d tbl); simpl;
      try reflexivity; apply dom_insert_lookup_L; eauto.
Qed.
End ProfileFurther.

Section FurtherOnTheSample.
Import Http Orm Drf SimpleJwt Accounts Sample.

Lemma registration_writes_only_on_created_witness :
  fst (dispatch settings (UserRegistrationView serializer) register_carol table) <> table
  /\ method register_carol = POST
  /\ status_code (snd (dispatch settings (UserRegistrationView serializer)
                         register_carol table)) = HTTP_201_CREATED.
Proof.
  assert (Hne : fst (dispatch settings (UserRegistrationView serializer)
                       register_carol table) <> table).
  { intros H. apply (f_equal size) in H. vm_compute in H. discriminate. }
  split; [exact Hne|].
  exact (registration_writes_only_on_created serializer settings register_carol table Hne).
Defined.

Lemma registration_never_lists_witness :
  method get_without_credentials <> POST
  /\ fst (dispatch settings (UserRegistrationView serializer) get_without_credentials table)
     = table.
Proof.
  assert (Hm : method get_without_credentials <> POST) by discriminate.
  split; [exact Hm|].
  exact (proj1 (registration_never_lists serializer settings get_without_credentials
                  table Hm)).
Defined.

Lemma login_only_post_gets_tokens_witness :
  method get_by_alice <> POST
  /\ fst (dispatch settings (UserLoginView jwt) get_by_alice table) = table.
Proof.
  assert (Hm : method get_by_alice <> POST) by discriminate.
  split; [exact Hm|].
  exact (proj1 (login_only_post_gets_tokens jwt settings get_by_alice table Hm)).
Defined.

Lemma profile_unauthenticated_rejected_witness :
  (forall u, perform_authentication settings (UserProfileView serializer)
               get_xml_without_credentials table <> inr (AuthUser u))
  /\ fst (dispatch settings (UserProfileView serializer) get_xml_without_credentials table)
     = table.
Proof.
  assert (Hno : forall u, perform_authentication settings (UserProfileView serializer)
                            get_xml_without_credentials table <> inr (AuthUser u))
    by (intros u; vm_compute; discriminate).
  split; [exact Hno|].
  exact (proj1 (profile_unauthenticated_rejected serializer settings
                  get_xml_without_credentials table Hno)).
Defined.

Lemma profile_writes_only_on_update_witness :
  fst (dispatch settings (UserProfileView serializer) patch_by_alice table) <> table
  /\ (method patch_by_alice = PUT \/ method patch_by_alice = PATCH).
Proof.
  assert (Hne : fst (dispatch settings (UserProfileView serializer) patch_by_alice table)
                <> table).
  { intros H. apply (f_equal (fun m : Table => m !! 1 ≫= (.!! "username"))) in H.
    vm_compute in H. discriminate. }
  split; [exact Hne|].
  exact (proj1 (profile_writes_only_on_update serializer settings patch_by_alice table Hne)).
Defined.
End FurtherOnTheSample.
